(** * F1 Data Analysis Hub: the lap aggregation pipeline and its callers

    A shallow embedding of [streamlit-f1-app.py].  The file follows the
    source top to bottom: the session data handed over by the timing
    provider, the pandas operations the script calls, the three functions
    [create_lap_time_chart], [create_telemetry_plot] and [load_session_data],
    and the render function [main] with its three tabs.

    Durations are pandas [Timedelta] values, that is integer nanoseconds;
    [total_seconds] and every mean are taken in exact rational arithmetic
    where the script uses float64. *)

From Stdlib Require Import List String Ascii ZArith QArith Bool Lia.
From Stdlib Require Import Sorting.Sorted Sorting.Permutation.
Import ListNotations.

Local Open Scope string_scope.
Local Open Scope list_scope.
Local Open Scope Z_scope.

(** ** Session data *)

(** A pandas [Timedelta]: a signed count of nanoseconds. *)
Definition Timedelta := Z.

(** [Timedelta.total_seconds()]. *)
Definition total_seconds (t : Timedelta) : Q := t # 1000000000.

(** [pd.notnull] on a nullable cell. *)
Definition notnull {A : Type} (c : option A) : bool :=
  match c with Some _ => true | None => false end.

(** The frame returned by [lap.get_telemetry()].  [Distance] and [Speed]
    are read unconditionally by the script; [Throttle] and [Brake] are
    columns that may be missing from [telemetry.columns]. *)
Record Telemetry := mkTelemetry {
  Distance : list Q;
  Speed : list Q;
  Throttle : option (list Q);
  Brake : option (list Q)
}.

(** One row of [session.laps].  A field of type [option] is a nullable
    cell, except [Compound] and [SpeedI2] where [None] stands for a label
    missing from the row (['Compound' in lap] is false). *)
Record Lap := mkLap {
  DriverNumber : string;
  LapNumber : Z;
  LapTime : option Timedelta;
  Compound : option string;
  Sector1Time : option Timedelta;
  Sector2Time : option Timedelta;
  Sector3Time : option Timedelta;
  SpeedI2 : option Q;
  get_telemetry : Telemetry
}.

(** The record returned by [session.get_driver]. *)
Record DriverInfo := mkDriverInfo {
  Abbreviation : string
}.

(** A loaded session: the driver identifiers in the provider's own order,
    the lap table, and the driver lookup. *)
Record Session := mkSession {
  drivers : list string;
  laps : list Lap;
  get_driver : string -> DriverInfo
}.

(** ** Provider and pandas operations used by the script *)

(** Modelled from the spec: [Laps.pick_driver] of the timing provider,
    which is not part of the repository; it retrieves that driver's laps
    from the session, in the order of the source lap sequence. *)
Definition pick_driver (ls : list Lap) (driver : string) : list Lap :=
  filter (fun l => String.eqb (DriverNumber l) driver) ls.

(** Modelled from the spec: [Laps.pick_fastest] of the timing provider:
    the lap with minimum lap time among the laps that have one, the first
    such lap of the sequence when several share that time, and absent when
    no lap has a lap time. *)
Fixpoint pick_fastest (ls : list Lap) : option Lap :=
  match ls with
  | [] => None
  | l :: rest =>
      match LapTime l, pick_fastest rest with
      | None, r => r
      | Some _, None => Some l
      | Some t, Some m =>
          match LapTime m with
          | Some tm => if tm <? t then Some m else Some l
          | None => Some l
          end
      end
  end.

(** Modelled from the spec: [Laps.pick_lap] of the timing provider: that
    driver's lap with that exact number, absent when there is none. *)
Definition pick_lap (ls : list Lap) (lap_number : Z) : option Lap :=
  find (fun l => LapNumber l =? lap_number) ls.

(** [Series.dropna]: the present values of a nullable column. *)
Fixpoint dropna {A : Type} (col : list (option A)) : list A :=
  match col with
  | [] => []
  | Some v :: rest => v :: dropna rest
  | None :: rest => dropna rest
  end.

Definition Qsum (vs : list Q) : Q := fold_right Qplus 0%Q vs.

Definition Qlen (vs : list Q) : Q := inject_Z (Z.of_nat (List.length vs)).

(** Modelled from the spec: pandas [mean] with its default [skipna]: the
    arithmetic mean of the present values, absent when there are none. *)
Definition nanmean (col : list (option Q)) : option Q :=
  match dropna col with
  | [] => None
  | vs => Some (Qsum vs / Qlen vs)%Q
  end.

(** Modelled from the spec: pandas [std] with its defaults ([skipna],
    one delta degree of freedom), undefined for fewer than two values.
    The value kept here is the sample variance, the square of what pandas
    reports, so that it stays rational. *)
Definition nanvar (col : list (option Q)) : option Q :=
  match dropna col with
  | [] => None
  | [_] => None
  | vs =>
      let m := (Qsum vs / Qlen vs)%Q in
      Some (Qsum (map (fun v => (v - m) * (v - m)) vs) / (Qlen vs - 1))%Q
  end.

(** *** Sorting *)

Section Sort.
Context {A K : Type} (leb : K -> K -> bool) (key : A -> K).

Fixpoint insert_by (x : A) (l : list A) : list A :=
  match l with
  | [] => [x]
  | y :: rest =>
      if leb (key y) (key x) then y :: insert_by x rest else x :: y :: rest
  end.

(** A stable sort by [key]: an element goes behind the elements already
    placed whose key is not larger. *)
Definition sort_by (l : list A) : list A :=
  fold_left (fun acc x => insert_by x acc) l [].
End Sort.

(** The order [sort_values] uses on a nullable column: ascending, missing
    values last. *)
Definition na_last {K : Type} (leb : K -> K -> bool) (a b : option K) : bool :=
  match a, b with
  | Some x, Some y => leb x y
  | _, None => true
  | None, Some _ => false
  end.

(** Python [sorted] on a list of [str]. *)
Definition sorted (l : list string) : list string :=
  sort_by String.leb (fun s => s) l.

(** ** The lap table: [create_lap_time_chart] *)

(** One dictionary appended to [lap_times_data]; the fields are the
    columns of the resulting frame and so are nullable cells. *)
Record LapRow := mkLapRow {
  Driver : string;
  Lap_Number : Z;
  Lap_Time : option Q;
  row_Compound : string;
  Sector_1 : option Q;
  Sector_2 : option Q;
  Sector_3 : option Q
}.

Definition sector_seconds (c : option Timedelta) : option Q :=
  match c with
  | Some t => Some (total_seconds t)
  | None => None
  end.

(** The body of the inner loop: the rows appended for the laps of one
    driver. *)
Fixpoint driver_rows (driver_info : DriverInfo) (driver_laps : list Lap)
  : list LapRow :=
  match driver_laps with
  | [] => []
  | lap :: rest =>
      match LapTime lap with
      | Some t =>
          let compound :=
            match Compound lap with Some c => c | None => "Unknown" end in
          {| Driver := Abbreviation driver_info;
             Lap_Number := LapNumber lap;
             Lap_Time := Some (total_seconds t);
             row_Compound := compound;
             Sector_1 := sector_seconds (Sector1Time lap);
             Sector_2 := sector_seconds (Sector2Time lap);
             Sector_3 := sector_seconds (Sector3Time lap) |}
          :: driver_rows driver_info rest
      | None => driver_rows driver_info rest
      end
  end.

(** The outer loop: [lap_times_data] once every selected driver has been
    visited. *)
Fixpoint lap_times_data (session : Session) (selected_drivers : list string)
  : list LapRow :=
  match selected_drivers with
  | [] => []
  | driver :: rest =>
      let driver_laps := pick_driver (laps session) driver in
      let driver_info := get_driver session driver in
      driver_rows driver_info driver_laps ++ lap_times_data session rest
  end.

(** [pd.DataFrame(lap_times_data) if lap_times_data else None]. *)
Definition create_lap_time_chart (session : Session)
  (selected_drivers : list string) : option (list LapRow) :=
  match lap_times_data session selected_drivers with
  | [] => None
  | rows => Some rows
  end.

(** ** Derived views of the lap table *)

(** One row of [lap_data[['Driver'] + sector_cols].groupby('Driver').mean()],
    indexed by the driver label. *)
Record SectorRow := mkSectorRow {
  sector_index : string;
  mean_Sector_1 : option Q;
  mean_Sector_2 : option Q;
  mean_Sector_3 : option Q
}.

(** The rows of one group. *)
Definition group_of (rows : list LapRow) (d : string) : list LapRow :=
  filter (fun r => String.eqb (Driver r) d) rows.

(** Modelled from the spec: pandas [groupby('Driver').mean()]: one row per
    driver label, labels in ascending order, each sector column averaged
    over the present values of the group. *)
Definition groupby_Driver_mean (rows : list LapRow) : list SectorRow :=
  map (fun d =>
         let g := group_of rows d in
         {| sector_index := d;
            mean_Sector_1 := nanmean (map Sector_1 g);
            mean_Sector_2 := nanmean (map Sector_2 g);
            mean_Sector_3 := nanmean (map Sector_3 g) |})
      (sorted (nodup string_dec (map Driver rows))).

(** ** Figures *)

Inductive Trace :=
| Scatter (x y : list Q) (name color : string)
| Bar (name : string) (x : list string) (y : list (option Q)).

Inductive Title :=
| Title_text (s : string)
| Title_telemetry (driver : string) (lap_number : Z).

Inductive Figure :=
| px_line (data : list LapRow) (title : Title)
| go_Figure (data : list Trace) (title : Title).

(** ** Telemetry: [create_telemetry_plot] *)

(** Python truth value of the [lap_number] argument: [None] and [0] are
    false. *)
Definition lap_number_given (lap_number : option Z) : bool :=
  match lap_number with
  | Some n => negb (n =? 0)
  | None => false
  end.

(** [Series * 100]: a new column, the operand is left as it was. *)
Definition times_100 (col : list Q) : list Q :=
  map (fun v => (v * 100)%Q) col.

(** The traces added to the figure.  The frame is threaded through and
    handed back so that what the body leaves in [telemetry] is explicit. *)
Definition telemetry_traces (telemetry : Telemetry) : list Trace * Telemetry :=
  let fig :=
    [Scatter (Distance telemetry) (Speed telemetry) "Speed" "blue"] in
  let fig :=
    match Throttle telemetry with
    | Some throttle =>
        fig ++ [Scatter (Distance telemetry) throttle "Throttle" "green"]
    | None => fig
    end in
  let fig :=
    match Brake telemetry with
    | Some brake =>
        fig ++ [Scatter (Distance telemetry) (times_100 brake) "Brake" "red"]
    | None => fig
    end in
  (fig, telemetry).

(** The lap picked by the first four lines of the function. *)
Definition telemetry_lap (session : Session) (driver : string)
  (lap_number : option Z) : option Lap :=
  match lap_number with
  | Some n =>
      if lap_number_given lap_number
      then pick_lap (pick_driver (laps session) driver) n
      else pick_fastest (pick_driver (laps session) driver)
  | None => pick_fastest (pick_driver (laps session) driver)
  end.

Definition create_telemetry_plot (session : Session) (driver : string)
  (lap_number : option Z) : option Figure :=
  match telemetry_lap session driver lap_number with
  | Some lap =>
      let telemetry := get_telemetry lap in
      let (traces, _) := telemetry_traces telemetry in
      Some (go_Figure traces (Title_telemetry driver (LapNumber lap)))
  | None => None
  end.

(** ** Statistics tables *)

Record FastestRow := mkFastestRow {
  fl_Driver : string;
  fl_Time : option Timedelta;
  fl_Lap : Z;
  fl_Speed : option Q
}.

(** The dictionary appended for one driver. *)
Definition fastest_row (driver : string) (driver_fastest : Lap) : FastestRow :=
  {| fl_Driver := driver;
     fl_Time := LapTime driver_fastest;
     fl_Lap := LapNumber driver_fastest;
     fl_Speed := SpeedI2 driver_fastest |}.

(** The loop filling [fastest_laps]. *)
Fixpoint fastest_laps (session : Session) (selected_drivers : list string)
  : list FastestRow :=
  match selected_drivers with
  | [] => []
  | driver :: rest =>
      match pick_fastest (pick_driver (laps session) driver) with
      | Some driver_fastest =>
          fastest_row driver driver_fastest :: fastest_laps session rest
      | None => fastest_laps session rest
      end
  end.

(** [fastest_df.sort_values('Time')]. *)
Definition fastest_df (session : Session) (selected_drivers : list string)
  : list FastestRow :=
  sort_by (na_last Z.leb) fl_Time (fastest_laps session selected_drivers).

(** The summary row of one driver.  [Std_Dev] holds the sample variance,
    see [nanvar]; [Average_Time] is in nanoseconds. *)
Record AvgRow := mkAvgRow {
  avg_Driver : string;
  Average_Time : option Q;
  Std_Dev : option Q;
  Laps_Completed : nat
}.

Definition LapTime_column (driver_laps : list Lap) : list (option Q) :=
  map (fun l => option_map inject_Z (LapTime l)) driver_laps.

(** The dictionary appended for one driver. *)
Definition avg_row (driver : string) (driver_laps : list Lap) : AvgRow :=
  {| avg_Driver := driver;
     Average_Time := nanmean (LapTime_column driver_laps);
     Std_Dev := nanvar (LapTime_column driver_laps);
     Laps_Completed := List.length driver_laps |}.

(** The loop filling [avg_times]; [driver_laps.empty] is true exactly for
    a frame without rows. *)
Fixpoint avg_times (session : Session) (selected_drivers : list string)
  : list AvgRow :=
  match selected_drivers with
  | [] => []
  | driver :: rest =>
      let driver_laps := pick_driver (laps session) driver in
      match driver_laps with
      | [] => avg_times session rest
      | _ => avg_row driver driver_laps :: avg_times session rest
      end
  end.

(** [avg_df.sort_values('Average Time')]. *)
Definition avg_df (session : Session) (selected_drivers : list string)
  : list AvgRow :=
  sort_by (na_last Qle_bool) Average_Time (avg_times session selected_drivers).

(** ** The page: Streamlit calls as effects *)

Inductive Value :=
| VInt (z : Z)
| VStr (s : string).

Inductive Table :=
| Fastest_Laps (rows : list FastestRow)
| Average_Lap_Times (rows : list AvgRow).

(** What a run puts on the page, one constructor per Streamlit call of the
    script, in call order. *)
Inductive Element :=
| st_title (body : string)
| st_markdown (body : string)
| st_header (body : string)
| st_subheader (body : string)
| st_selectbox (label : string) (options : list Value)
| st_multiselect (label : string) (options default : list string)
| st_button (label : string)
| st_spinner (text : string)
| st_error (body : string)
| st_success (body : string)
| st_tabs (labels : list string)
| st_expander (label : string)
| st_plotly_chart (fig : Figure)
| st_dataframe (data : Table).

(** [st.session_state]: the two keys the script writes. *)
Record SessionState := mkSessionState {
  ss_session : option Session;
  ss_drivers : option (list string)
}.

(** A run either ends with a value, the session state it leaves and the
    elements it rendered, or is aborted by an exception nobody caught. *)
Inductive Result (A : Type) :=
| Done (a : A) (s : SessionState) (out : list Element)
| Raised (e : string).
Arguments Done {A} a s out.
Arguments Raised {A} e.

Definition UI (A : Type) : Type := SessionState -> Result A.

Definition ret {A : Type} (a : A) : UI A := fun s => Done a s [].

Definition bind {A B : Type} (m : UI A) (f : A -> UI B) : UI B :=
  fun s =>
    match m s with
    | Done a s1 o1 =>
        match f a s1 with
        | Done b s2 o2 => Done b s2 (o1 ++ o2)
        | Raised e => Raised e
        end
    | Raised e => Raised e
    end.

Notation "x <- c1 ;; c2" := (bind c1 (fun x => c2))
  (at level 61, c1 at next level, right associativity).
Notation "c1 ;; c2" := (bind c1 (fun _ => c2))
  (at level 61, right associativity).

Definition emit (e : Element) : UI unit := fun s => Done tt s [e].

Definition raise {A : Type} (e : string) : UI A := fun _ => Raised e.

Definition get_state : UI SessionState := fun s => Done s s [].


(** The elements a finished run rendered. *)
Definition rendered {A : Type} (r : Result A) : list Element :=
  match r with
  | Done _ _ out => out
  | Raised _ => []
  end.

(** What the user did with the widgets of one run: the position picked in
    each select box, whether the button was pressed, and the positions
    ticked in the driver multiselect ([None]: left at its default). *)
Record Inputs := mkInputs {
  year_pick : nat;
  grand_prix_pick : nat;
  session_type_pick : nat;
  load_data : bool;
  drivers_pick : option (list nat);
  driver_pick : nat;
  lap_pick : nat
}.


(** The value of a select box: one of the options, the first one unless
    the user picked another; nothing when there are no options. *)
Definition picked {A : Type} (options : list A) (pick : nat) : option A :=
  match nth_error options pick with
  | Some x => Some x
  | None => hd_error options
  end.

(** [st.selectbox]. *)
Definition selectbox {A : Type} (label : string) (show : A -> Value)
  (options : list A) (pick : nat) : UI (option A) :=
  emit (st_selectbox label (map show options)) ;;
  ret (picked options pick).

(** [st.multiselect]: the default until the user changes the selection,
    then the ticked options. *)
Definition multiselect (label : string) (options default : list string)
  (pick : option (list nat)) : UI (list string) :=
  emit (st_multiselect label options default) ;;
  ret (match pick with
       | None => default
       | Some idx => dropna (map (nth_error options) (nodup Nat.eq_dec idx))
       end).

(** [range(current_year, 2018, -1)]. *)
Definition year_range (current : Z) : list Z :=
  map (fun i => current - Z.of_nat i) (seq 0 (Z.to_nat (current - 2018))).


(** ** Session loading: [load_session_data] and [get_schedule] *)



(** ** The three tabs *)

Definition sector_cols : list string := ["Sector 1"; "Sector 2"; "Sector 3"].

Definition sector_bar (row : SectorRow) : Trace :=
  Bar (sector_index row) sector_cols
      [mean_Sector_1 row; mean_Sector_2 row; mean_Sector_3 row].

(** [with tab1:] *)
Definition tab1 (session : Session) (selected_drivers : list string)
  : UI unit :=
  emit (st_header "Lap Times Analysis") ;;
  match create_lap_time_chart session selected_drivers with
  | Some lap_data =>
      emit (st_plotly_chart
              (px_line lap_data (Title_text "Lap Times Comparison"))) ;;
      emit (st_subheader "Sector Times Analysis") ;;
      let sector_data := groupby_Driver_mean lap_data in
      emit (st_plotly_chart
              (go_Figure (map sector_bar sector_data)
                         (Title_text "Average Sector Times")))
  | None => ret tt
  end.

(** Python truth value of the driver returned by the select box. *)
Definition driver_given (driver : option string) : bool :=
  match driver with
  | Some d => negb (String.eqb d "")
  | None => false
  end.

(** [with tab2:] *)
Definition tab2 (session : Session) (selected_drivers : list string)
  (inp : Inputs) : UI unit :=
  emit (st_header "Telemetry Analysis") ;;
  driver <- selectbox "Select Driver" VStr selected_drivers (driver_pick inp) ;;
  match driver with
  | Some d =>
      if driver_given driver then
        let driver_laps := pick_driver (laps session) d in
        let lap_numbers := map LapNumber driver_laps in
        selected_lap <-
          selectbox "Select Lap Number" VInt lap_numbers (lap_pick inp) ;;
        if lap_number_given selected_lap then
          match create_telemetry_plot session d selected_lap with
          | Some fig_telemetry => emit (st_plotly_chart fig_telemetry)
          | None => ret tt
          end
        else ret tt
      else ret tt
  | None => ret tt
  end.

(** [with tab3:] *)
Definition tab3 (session : Session) (selected_drivers : list string)
  : UI unit :=
  emit (st_header "Session Statistics") ;;
  emit (st_expander "Fastest Laps") ;;
  (match fastest_laps session selected_drivers with
   | [] => ret tt
   | _ => emit (st_dataframe (Fastest_Laps (fastest_df session selected_drivers)))
   end) ;;
  emit (st_expander "Average Lap Times") ;;
  match avg_times session selected_drivers with
  | [] => ret tt
  | _ => emit (st_dataframe (Average_Lap_Times (avg_df session selected_drivers)))
  end.

(** ** [main] *)


(** The block under [if 'session' in st.session_state]. *)
Definition dashboard (inp : Inputs) : UI unit :=
  state <- get_state ;;
  match ss_session state with
  | Some session =>
      match ss_drivers state with
      | Some all_drivers =>
          selected_drivers <-
            multiselect "Select Drivers to Compare" all_drivers
                        (firstn 3 all_drivers) (drivers_pick inp) ;;
          match selected_drivers with
          | [] => ret tt
          | _ =>
              emit (st_tabs ["Lap Analysis"; "Telemetry"; "Statistics"]) ;;
              tab1 session selected_drivers ;;
              tab2 session selected_drivers inp ;;
              tab3 session selected_drivers
          end
      | None => raise "KeyError: 'drivers'"
      end
  | None => ret tt
  end.


(** ** Worked sessions

    A small session used to run the definitions: driver 44 has three laps,
    the second without a lap time; driver 1 has two laps of equal time,
    neither with a first-sector time; driver 16 has a single lap without a
    lap time; driver 4 has no lap at all. *)

Definition sample_telemetry : Telemetry :=
  {| Distance := [0; 50; 100]%Q;
     Speed := [210; 180; 250]%Q;
     Throttle := Some [100; 0; 100]%Q;
     Brake := Some [0; 1; 0]%Q |}.

Definition bare_telemetry : Telemetry :=
  {| Distance := [0; 50]%Q; Speed := [200; 220]%Q;
     Throttle := None; Brake := None |}.

Definition sample_laps : list Lap :=
  [ mkLap "44" 1 (Some 90100000000) (Some "SOFT") (Some 30000000000)
          (Some 30000000000) (Some 30100000000) (Some 299%Q) sample_telemetry;
    mkLap "44" 2 None (Some "SOFT") (Some 31000000000) None None None
          bare_telemetry;
    mkLap "44" 3 (Some 89500000000) None (Some 29500000000)
          (Some 30000000000) (Some 30000000000) None sample_telemetry;
    mkLap "1" 1 (Some 91000000000) (Some "HARD") None (Some 30500000000)
          (Some 30500000000) None bare_telemetry;
    mkLap "1" 2 (Some 91000000000) (Some "HARD") None
          (Some 30500000000) (Some 30500000000) (Some 301%Q) sample_telemetry;
    mkLap "16" 1 None None None None None None bare_telemetry ].

Definition sample_get_driver (driver : string) : DriverInfo :=
  if String.eqb driver "44" then mkDriverInfo "HAM"
  else if String.eqb driver "1" then mkDriverInfo "VER"
  else if String.eqb driver "16" then mkDriverInfo "LEC"
  else mkDriverInfo "NOR".

Definition sample_session : Session :=
  {| drivers := ["44"; "1"; "16"; "4"];
     laps := sample_laps;
     get_driver := sample_get_driver |}.

(** ** Reading the page *)

(** The calls of the script that put a message on the page. *)
Definition is_notice (e : Element) : bool :=
  match e with
  | st_markdown _ | st_error _ | st_success _ => true
  | _ => false
  end.


(** A page shows a no-data state when some message is on it. *)
Definition shows_no_data_state (out : list Element) : Prop :=
  exists e, In e out /\ is_notice e = true.

(** No lap of a selected driver has a lap time. *)
Definition no_lap_qualifies (session : Session) (sel : list string) : Prop :=
  forall d l,
    In d sel -> In l (pick_driver (laps session) d) -> LapTime l = None.

Definition empty_state : SessionState :=
  {| ss_session := None; ss_drivers := None |}.







(** The values a figure plots under a trace name. *)
Definition trace_values (name : string) (fig : Figure) : list Q :=
  match fig with
  | go_Figure data _ =>
      flat_map (fun tr =>
                  match tr with
                  | Scatter _ y n _ => if String.eqb n name then y else []
                  | Bar _ _ _ => []
                  end) data
  | px_line _ _ => []
  end.

(** The figure drawn for a lap. *)
Definition lap_figure (driver : string) (lap : Lap) : Figure :=
  go_Figure (fst (telemetry_traces (get_telemetry lap)))
            (Title_telemetry driver (LapNumber lap)).

(** The lap number the telemetry tab hands to [create_telemetry_plot]. *)
Definition selected_lap_of (session : Session) (d : string) (inp : Inputs)
  : option Z :=
  picked (map LapNumber (pick_driver (laps session) d)) (lap_pick inp).

(** The lap table lists the laps of each driver by ascending lap number:
    a lap never comes before a lap of the same driver with a smaller
    number. *)
Fixpoint laps_in_order (ls : list Lap) : bool :=
  match ls with
  | [] => true
  | l :: rest =>
      forallb (fun l' =>
                 negb (String.eqb (DriverNumber l') (DriverNumber l))
                 || (LapNumber l <=? LapNumber l')) rest
      && laps_in_order rest
  end.

(** The order of a table sorted by a column without missing values. *)
Definition time_le (a b : FastestRow) : Prop :=
  exists ta tb, fl_Time a = Some ta /\ fl_Time b = Some tb /\ ta <= tb.

(** The order of a table sorted by a column that may miss values:
    ascending, rows without a value last. *)
Definition average_le (a b : AvgRow) : Prop :=
  match Average_Time a, Average_Time b with
  | Some x, Some y => (x <= y)%Q
  | _, None => True
  | None, Some _ => False
  end.


(** ** Predicates used in the statements *)

(** The order a sort by [key] establishes. *)
Definition key_le {A K : Type} (leb : K -> K -> bool) (key : A -> K)
  (a b : A) : Prop :=
  leb (key a) (key b) = true.

(** A row of the lap table has a lap time. *)
Definition has_lap_time (r : LapRow) : bool := notnull (Lap_Time r).

(** A lap of the session has a lap time. *)
Definition timed (l : Lap) : bool := notnull (LapTime l).

(** What a row reports about the lap it comes from. *)
Definition reported (l : Lap) : Z * option Q :=
  (LapNumber l, option_map total_seconds (LapTime l)).



Definition lap_number_le (a b : Lap) : Prop := LapNumber a <= LapNumber b.

Definition unit_interval (b : Q) : Prop := (0 <= b /\ b <= 1)%Q.

Definition percentage (v : Q) : Prop := (0 <= v /\ v <= 100)%Q.

(** ** Further vocabulary for runs of [main] *)








(** A run in which the user touches nothing. *)
Definition no_press : Inputs :=
  {| year_pick := 0; grand_prix_pick := 0; session_type_pick := 0;
     load_data := false; drivers_pick := None;
     driver_pick := 0; lap_pick := 0 |}.

(** ** Further vocabulary for the lap table and the figures *)

(** The dictionary [create_lap_time_chart] appends for a timed lap. *)
Definition row_of (driver_info : DriverInfo) (lap : Lap) (t : Timedelta)
  : LapRow :=
  {| Driver := Abbreviation driver_info;
     Lap_Number := LapNumber lap;
     Lap_Time := Some (total_seconds t);
     row_Compound := match Compound lap with Some c => c | None => "Unknown" end;
     Sector_1 := sector_seconds (Sector1Time lap);
     Sector_2 := sector_seconds (Sector2Time lap);
     Sector_3 := sector_seconds (Sector3Time lap) |}.

(** The number of laps of a driver that have a lap time. *)
Definition timed_laps (session : Session) (driver : string) : nat :=
  List.length (filter timed (pick_driver (laps session) driver)).




(** The rows of a rendered table, as a count. *)
Definition table_size (data : Table) : nat :=
  match data with
  | Fastest_Laps rows => List.length rows
  | Average_Lap_Times rows => List.length rows
  end.



(** * Properties *)

(** ** Sorting *)

Section SortFacts.
Context {A K : Type} (leb : K -> K -> bool) (key : A -> K).

Hypothesis leb_total : forall x y, leb x y = true \/ leb y x = true.
Hypothesis leb_trans :
  forall x y z, leb x y = true -> leb y z = true -> leb x z = true.

Lemma insert_by_perm (x : A) (l : list A) :
  Permutation (insert_by leb key x l) (x :: l).
Proof.
  induction l as [|y rest IH]; simpl.
  - apply Permutation_refl.
  - destruct (leb (key y) (key x)).
    + apply Permutation_trans with (y :: x :: rest).
      * now apply perm_skip.
      * apply perm_swap.
    + apply Permutation_refl.
Qed.

Lemma fold_insert_perm (l acc : list A) :
  Permutation (fold_left (fun acc x => insert_by leb key x acc) l acc)
              (acc ++ l).
Proof.
  revert acc; induction l as [|x rest IH]; intros acc; simpl.
  - rewrite app_nil_r. apply Permutation_refl.
  - eapply Permutation_trans; [apply IH|].
    eapply Permutation_trans.
    + apply Permutation_app_tail, insert_by_perm.
    + simpl. apply Permutation_middle.
Qed.

Lemma sort_by_perm (l : list A) : Permutation (sort_by leb key l) l.
Proof. unfold sort_by. apply (fold_insert_perm l []). Qed.

Lemma sort_by_In (l : list A) (a : A) : In a (sort_by leb key l) <-> In a l.
Proof.
  split; apply Permutation_in;
    [apply sort_by_perm | apply Permutation_sym, sort_by_perm].
Qed.

Lemma insert_by_HdRel (x a : A) (l : list A) :
  (key_le leb key) a x -> HdRel (key_le leb key) a l -> HdRel (key_le leb key) a (insert_by leb key x l).
Proof.
  intros Hax Hl. destruct l as [|y rest]; simpl.
  - now constructor.
  - inversion Hl; subst.
    destruct (leb (key y) (key x)); now constructor.
Qed.

Lemma insert_by_Sorted (x : A) (l : list A) :
  Sorted (key_le leb key) l -> Sorted (key_le leb key) (insert_by leb key x l).
Proof.
  induction l as [|y rest IH]; intros Hs; simpl.
  - repeat constructor.
  - inversion Hs as [|? ? Hrest Hhd]; subst.
    destruct (leb (key y) (key x)) eqn:Hyx.
    + constructor; [now apply IH|].
      now apply insert_by_HdRel.
    + constructor; [assumption|].
      constructor. destruct (leb_total (key x) (key y)) as [H|H];
        [exact H | congruence].
Qed.

Lemma fold_insert_Sorted (l acc : list A) :
  Sorted (key_le leb key) acc ->
  Sorted (key_le leb key) (fold_left (fun acc x => insert_by leb key x acc) l acc).
Proof.
  revert acc; induction l as [|x rest IH]; intros acc Hacc; simpl.
  - exact Hacc.
  - apply IH, insert_by_Sorted, Hacc.
Qed.

Lemma sort_by_Sorted (l : list A) : Sorted (key_le leb key) (sort_by leb key l).
Proof. apply fold_insert_Sorted. constructor. Qed.

Lemma sort_by_StronglySorted (l : list A) :
  StronglySorted (key_le leb key) (sort_by leb key l).
Proof.
  apply Sorted_StronglySorted.
  - intros a b c Hab Hbc. unfold key_le in *. eauto.
  - apply sort_by_Sorted.
Qed.
End SortFacts.

Lemma na_last_total {K : Type} (leb : K -> K -> bool) :
  (forall x y, leb x y = true \/ leb y x = true) ->
  forall a b, na_last leb a b = true \/ na_last leb b a = true.
Proof.
  intros Htot [x|] [y|]; simpl; auto.
Qed.

Lemma na_last_trans {K : Type} (leb : K -> K -> bool) :
  (forall x y z, leb x y = true -> leb y z = true -> leb x z = true) ->
  forall a b c,
    na_last leb a b = true -> na_last leb b c = true -> na_last leb a c = true.
Proof.
  intros Htr [x|] [y|] [z|]; simpl; intros; eauto; discriminate.
Qed.

Lemma Zleb_total (x y : Z) : (x <=? y) = true \/ (y <=? x) = true.
Proof. rewrite !Z.leb_le. lia. Qed.

Lemma Zleb_trans (x y z : Z) :
  (x <=? y) = true -> (y <=? z) = true -> (x <=? z) = true.
Proof. rewrite !Z.leb_le. lia. Qed.

Lemma Qleb_total (x y : Q) : Qle_bool x y = true \/ Qle_bool y x = true.
Proof.
  rewrite !Qle_bool_iff.
  destruct (Qlt_le_dec x y) as [H|H]; [left; now apply Qlt_le_weak | now right].
Qed.

Lemma Qleb_trans (x y z : Q) :
  Qle_bool x y = true -> Qle_bool y z = true -> Qle_bool x z = true.
Proof. rewrite !Qle_bool_iff. apply Qle_trans. Qed.

(** ** The lap table *)

Lemma filter_all_true {A : Type} (f : A -> bool) (l : list A) :
  Forall (fun a => f a = true) l -> filter f l = l.
Proof.
  induction 1 as [|a l Ha _ IH]; simpl.
  - reflexivity.
  - now rewrite Ha, IH.
Qed.

Lemma driver_rows_timed (info : DriverInfo) (ls : list Lap) :
  Forall (fun r => has_lap_time r = true) (driver_rows info ls).
Proof.
  induction ls as [|l rest IH]; simpl.
  - constructor.
  - destruct (LapTime l); [constructor; [reflexivity | exact IH] | exact IH].
Qed.

Lemma driver_rows_reported (info : DriverInfo) (ls : list Lap) :
  map (fun r => (Lap_Number r, Lap_Time r)) (driver_rows info ls)
  = map reported (filter timed ls).
Proof.
  induction ls as [|l rest IH]; simpl.
  - reflexivity.
  - unfold timed at 1. destruct (LapTime l) as [t|] eqn:Ht; simpl.
    + rewrite IH. unfold reported. now rewrite Ht.
    + exact IH.
Qed.

Lemma lap_times_data_timed (session : Session) (sel : list string) :
  Forall (fun r => has_lap_time r = true) (lap_times_data session sel).
Proof.
  induction sel as [|d rest IH]; simpl.
  - constructor.
  - apply Forall_app; split; [apply driver_rows_timed | exact IH].
Qed.

Lemma lap_times_data_reported (session : Session) (sel : list string) :
  map (fun r => (Lap_Number r, Lap_Time r)) (lap_times_data session sel)
  = map reported (filter timed (flat_map (pick_driver (laps session)) sel)).
Proof.
  induction sel as [|d rest IH]; simpl.
  - reflexivity.
  - rewrite map_app, filter_app, map_app, IH, driver_rows_reported.
    reflexivity.
Qed.

Lemma create_lap_time_chart_Some (session : Session) (sel : list string)
  (table : list LapRow) :
  create_lap_time_chart session sel = Some table ->
  table = lap_times_data session sel /\ table <> [].
Proof.
  unfold create_lap_time_chart.
  destruct (lap_times_data session sel) as [|r rows]; [discriminate|].
  intros H; injection H as <-. split; [reflexivity | discriminate].
Qed.

(** C1.  Every row of the table returned by [create_lap_time_chart] has a
    lap time; filtering the table again for a present lap time returns the
    same table; and the rows are, in order, exactly the laps of the selected
    drivers that have a lap time, so a lap without one leaves no row. *)
Theorem lap_table_rows_have_lap_time :
  forall (session : Session) (selected_drivers : list string)
         (table : list LapRow),
    create_lap_time_chart session selected_drivers = Some table ->
    Forall (fun r => Lap_Time r <> None) table
    /\ filter has_lap_time table = table
    /\ map (fun r => (Lap_Number r, Lap_Time r)) table
       = map reported
           (filter timed
              (flat_map (pick_driver (laps session)) selected_drivers)).
Proof.
  intros session sel table H.
  apply create_lap_time_chart_Some in H as [-> _].
  pose proof (lap_times_data_timed session sel) as Ht.
  repeat split.
  - eapply Forall_impl; [|exact Ht].
    intros r Hr. unfold has_lap_time in Hr.
    destruct (Lap_Time r); [discriminate | discriminate Hr].
  - now apply filter_all_true.
  - apply lap_times_data_reported.
Qed.

Lemma lap_table_rows_have_lap_time_witness :
  exists table,
    create_lap_time_chart sample_session ["44"; "16"] = Some table
    /\ List.length table = 2%nat
    /\ filter has_lap_time table = table.
Proof.
  eexists. split; [reflexivity|]. split; [reflexivity|].
  apply (lap_table_rows_have_lap_time sample_session ["44"; "16"]).
  reflexivity.
Defined.

(** ** No data *)

Lemma filter_nil_iff {A : Type} (f : A -> bool) (l : list A) :
  filter f l = [] <-> forall a, In a l -> f a = false.
Proof.
  induction l as [|x rest IH]; simpl.
  - split; [intros _ a [] | reflexivity].
  - destruct (f x) eqn:Hx.
    + split; [discriminate|].
      intros H. specialize (H x (or_introl eq_refl)). congruence.
    + rewrite IH. split.
      * intros H a [<-|Ha]; auto.
      * intros H a Ha. apply H. now right.
Qed.

Lemma lap_times_data_nil_iff (session : Session) (sel : list string) :
  lap_times_data session sel = [] <-> no_lap_qualifies session sel.
Proof.
  pose proof (lap_times_data_reported session sel) as Hmap.
  assert (Hnil : lap_times_data session sel = []
                 <-> filter timed
                       (flat_map (pick_driver (laps session)) sel) = []).
  { split; intros H.
    - rewrite H in Hmap. simpl in Hmap. symmetry in Hmap.
      now apply map_eq_nil in Hmap.
    - rewrite H in Hmap. simpl in Hmap. now apply map_eq_nil in Hmap. }
  rewrite Hnil, filter_nil_iff. unfold no_lap_qualifies, timed. split.
  - intros H d l Hd Hl.
    assert (Hin : In l (flat_map (pick_driver (laps session)) sel))
      by (apply in_flat_map; eauto).
    specialize (H l Hin). destruct (LapTime l); [discriminate | reflexivity].
  - intros H l Hl. apply in_flat_map in Hl as (d & Hd & Hl).
    now rewrite (H d l Hd Hl).
Qed.

Lemma create_lap_time_chart_None (session : Session) (sel : list string) :
  create_lap_time_chart session sel = None <-> no_lap_qualifies session sel.
Proof.
  rewrite <- lap_times_data_nil_iff. unfold create_lap_time_chart.
  destruct (lap_times_data session sel); split; congruence.
Qed.

(** C8, as the code has it.  [create_lap_time_chart] returns [None], and
    never an empty table, exactly when no lap of a selected driver has a
    lap time, which includes the empty selection.  The caller then renders
    the header of the tab and nothing else: no chart and no message.  With
    an empty selection [main] stops after the driver multiselect and opens
    no tab. *)
Theorem no_data_is_None_and_renders_header_only :
  forall (session : Session) (selected_drivers : list string),
    (create_lap_time_chart session selected_drivers = None
     <-> no_lap_qualifies session selected_drivers)
    /\ create_lap_time_chart session [] = None
    /\ create_lap_time_chart session selected_drivers <> Some []
    /\ (create_lap_time_chart session selected_drivers = None ->
        forall s,
          tab1 session selected_drivers s
          = Done tt s [st_header "Lap Times Analysis"])
    /\ (forall inp s all_drivers,
          ss_session s = Some session ->
          ss_drivers s = Some all_drivers ->
          drivers_pick inp = Some [] ->
          dashboard inp s
          = Done tt s [st_multiselect "Select Drivers to Compare" all_drivers
                                      (firstn 3 all_drivers)]).
Proof.
  intros session sel. split; [apply create_lap_time_chart_None|].
  split; [reflexivity|]. split.
  - intros H. apply create_lap_time_chart_Some in H as [_ H]. now apply H.
  - split.
    + intros H s. unfold tab1, bind, emit. now rewrite H.
    + intros inp s ds Hs Hd Hp. unfold dashboard, bind, get_state.
      rewrite Hs, Hd. unfold multiselect, bind, emit, ret. now rewrite Hp.
Qed.

Lemma no_data_is_None_and_renders_header_only_witness :
  create_lap_time_chart sample_session ["16"; "4"] = None
  /\ tab1 sample_session ["16"; "4"] empty_state
     = Done tt empty_state [st_header "Lap Times Analysis"].
Proof.
  split; [reflexivity|].
  apply (no_data_is_None_and_renders_header_only sample_session ["16"; "4"]).
  reflexivity.
Defined.

(** The claim as the specification words it: on no data the caller shows
    a no-data state.  It fails for driver 16, whose only lap has no lap
    time: the tab holds its header alone. *)
Lemma no_data_state_not_rendered :
  create_lap_time_chart sample_session ["16"] = None
  /\ ~ shows_no_data_state (rendered (tab1 sample_session ["16"] empty_state)).
Proof.
  split; [reflexivity|].
  intros (e & He & Hn). simpl in He.
  destruct He as [<-|[]]. discriminate Hn.
Qed.

(** ** Runs of the page *)





(** ** Fetch failure *)




(** ** Driver selection *)







(** ** Picking laps *)

Lemma pick_driver_In (ls : list Lap) (d : string) (l : Lap) :
  In l (pick_driver ls d) <-> In l ls /\ DriverNumber l = d.
Proof.
  unfold pick_driver. rewrite filter_In, String.eqb_eq. reflexivity.
Qed.

Lemma pick_fastest_None (ls : list Lap) :
  pick_fastest ls = None <-> forall l, In l ls -> LapTime l = None.
Proof.
  induction ls as [|l rest IH]; simpl.
  - split; [intros _ l [] | reflexivity].
  - destruct (LapTime l) as [t|] eqn:Hl.
    + split.
      * destruct (pick_fastest rest) as [m|]; [|discriminate].
        destruct (LapTime m) as [tm|]; [destruct (tm <? t)|]; discriminate.
      * intros H. specialize (H l (or_introl eq_refl)). congruence.
    + rewrite IH. split.
      * intros H l' [<-|Hin]; auto.
      * intros H l' Hin. apply H. now right.
Qed.

(** The lap [pick_fastest] returns is one of the laps, has a lap time, and
    no lap with a lap time is quicker. *)
Lemma pick_fastest_Some (ls : list Lap) (m : Lap) :
  pick_fastest ls = Some m ->
  In m ls
  /\ exists t, LapTime m = Some t
               /\ forall l' t', In l' ls -> LapTime l' = Some t' -> t <= t'.
Proof.
  revert m. induction ls as [|l rest IH]; simpl; intros m H; [discriminate|].
  destruct (LapTime l) as [t|] eqn:Hl.
  - destruct (pick_fastest rest) as [r|] eqn:Hp.
    + destruct (IH r eq_refl) as (Hin & tr & Hr & Hmin).
      rewrite Hr in H. destruct (tr <? t) eqn:Hlt.
      * injection H as <-. split; [now right|].
        exists tr. split; [exact Hr|].
        intros l' t' [<-|Hl'] Ht'.
        -- apply Z.ltb_lt in Hlt. rewrite Hl in Ht'. injection Ht' as <-. lia.
        -- eauto.
      * injection H as <-. split; [now left|].
        exists t. split; [exact Hl|].
        apply Z.ltb_ge in Hlt.
        intros l' t' [<-|Hl'] Ht'.
        -- rewrite Hl in Ht'. injection Ht' as <-. lia.
        -- specialize (Hmin l' t' Hl' Ht'). lia.
    + injection H as <-. split; [now left|].
      exists t. split; [exact Hl|].
      intros l' t' [<-|Hl'] Ht'.
      * rewrite Hl in Ht'. injection Ht' as <-. lia.
      * rewrite (proj1 (pick_fastest_None rest) Hp l' Hl') in Ht'.
        discriminate.
  - destruct (IH m H) as (Hin & t & Hm & Hmin).
    split; [now right|]. exists t. split; [exact Hm|].
    intros l' t' [<-|Hl'] Ht'; [congruence | eauto].
Qed.

(** Among laps of equal best time, [pick_fastest] returns the one that
    comes first; in a sequence ordered by lap number that is the one with
    the smallest number. *)
Lemma pick_fastest_earliest (ls : list Lap) (m : Lap) (t : Timedelta) :
  StronglySorted lap_number_le ls ->
  pick_fastest ls = Some m ->
  LapTime m = Some t ->
  forall l', In l' ls -> LapTime l' = Some t -> LapNumber m <= LapNumber l'.
Proof.
  intros Hs. revert m t.
  induction Hs as [|l rest Hrest IH Hall]; simpl; intros m t H Hm l' Hl' Ht';
    [discriminate|].
  rewrite Forall_forall in Hall.
  destruct (LapTime l) as [tl|] eqn:Hl.
  - destruct (pick_fastest rest) as [r|] eqn:Hp.
    + destruct (pick_fastest_Some rest r Hp) as (Hin & tr & Hr & Hmin).
      rewrite Hr in H. destruct (tr <? tl) eqn:Hlt.
      * injection H as <-. destruct Hl' as [<-|Hl'].
        -- apply Z.ltb_lt in Hlt. rewrite Hr in Hm. injection Hm as <-.
           rewrite Hl in Ht'. injection Ht' as <-. lia.
        -- exact (IH r t eq_refl Hm l' Hl' Ht').
      * injection H as <-. destruct Hl' as [<-|Hl'];
          [unfold lap_number_le; lia | now apply Hall].
    + injection H as <-. destruct Hl' as [<-|Hl'];
        [unfold lap_number_le; lia | now apply Hall].
  - destruct Hl' as [<-|Hl']; [congruence|].
    exact (IH m t H Hm l' Hl' Ht').
Qed.

Lemma pick_lap_Some (ls : list Lap) (n : Z) (lap : Lap) :
  pick_lap ls n = Some lap -> In lap ls /\ LapNumber lap = n.
Proof.
  unfold pick_lap. intros H. apply find_some in H as [Hin Hn].
  split; [exact Hin | now apply Z.eqb_eq].
Qed.

Lemma pick_lap_None (ls : list Lap) (n : Z) :
  pick_lap ls n = None <-> forall lap, In lap ls -> LapNumber lap <> n.
Proof.
  unfold pick_lap. split.
  - intros H lap Hin. apply Z.eqb_neq. exact (find_none _ _ H lap Hin).
  - intros H. destruct (find _ ls) as [lap|] eqn:Hf; [|reflexivity].
    apply find_some in Hf as [Hin Hn]. apply Z.eqb_eq in Hn.
    now destruct (H lap Hin).
Qed.

Lemma create_telemetry_plot_eq (session : Session) (driver : string)
  (lap_number : option Z) :
  create_telemetry_plot session driver lap_number
  = option_map (lap_figure driver) (telemetry_lap session driver lap_number).
Proof.
  unfold create_telemetry_plot.
  destruct (telemetry_lap session driver lap_number); reflexivity.
Qed.

Lemma telemetry_lap_numbered (session : Session) (driver : string) (n : Z) :
  n <> 0 ->
  telemetry_lap session driver (Some n)
  = pick_lap (pick_driver (laps session) driver) n.
Proof.
  intros Hn. unfold telemetry_lap, lap_number_given.
  apply Z.eqb_neq in Hn. now rewrite Hn.
Qed.


(** ** Telemetry *)






(** ** Brake as a percentage *)

Lemma times_100_percentage (brake : list Q) :
  Forall unit_interval brake -> Forall percentage (times_100 brake).
Proof.
  induction 1 as [|b rest [H0 H1] _ IH]; simpl; constructor; [|exact IH].
  destruct b as [num den]. unfold percentage, Qle in *. simpl in *. lia.
Qed.

Lemma trace_values_Brake (telemetry : Telemetry) (title : Title) :
  trace_values "Brake" (go_Figure (fst (telemetry_traces telemetry)) title)
  = match Brake telemetry with
    | Some brake => times_100 brake
    | None => []
    end.
Proof.
  unfold telemetry_traces. simpl.
  destruct (Throttle telemetry), (Brake telemetry); simpl;
    now rewrite ?app_nil_r.
Qed.

(** C7.  In a figure returned by [create_telemetry_plot] the brake trace
    is there exactly when the lap's telemetry has a brake column; its
    values are the raw values times 100, so they lie between 0 and 100
    when the raw values lie between 0 and 1; and the telemetry frame the
    function read is the same after the traces were built. *)
Theorem brake_trace_is_percentage :
  forall (session : Session) (driver : string) (lap_number : option Z)
         (fig : Figure),
    create_telemetry_plot session driver lap_number = Some fig ->
    exists lap,
      telemetry_lap session driver lap_number = Some lap
      /\ snd (telemetry_traces (get_telemetry lap)) = get_telemetry lap
      /\ (Brake (get_telemetry lap) = None -> trace_values "Brake" fig = [])
      /\ forall brake,
           Brake (get_telemetry lap) = Some brake ->
           trace_values "Brake" fig = map (fun b => (b * 100)%Q) brake
           /\ (Forall unit_interval brake ->
               Forall percentage (trace_values "Brake" fig)).
Proof.
  intros session driver lap_number fig H.
  rewrite create_telemetry_plot_eq in H.
  destruct (telemetry_lap session driver lap_number) as [lap|];
    [|discriminate].
  injection H as <-. exists lap. split; [reflexivity|].
  split; [reflexivity|].
  unfold lap_figure. rewrite trace_values_Brake. split.
  - now intros ->.
  - intros brake ->. split; [reflexivity | apply times_100_percentage].
Qed.

Lemma brake_trace_is_percentage_witness :
  exists fig,
    create_telemetry_plot sample_session "44" (Some 1) = Some fig
    /\ trace_values "Brake" fig = [0 * 100; 1 * 100; 0 * 100]%Q
    /\ Forall percentage (trace_values "Brake" fig)
    /\ Brake sample_telemetry = Some [0; 1; 0]%Q.
Proof.
  eexists. split; [reflexivity|].
  destruct (brake_trace_is_percentage sample_session "44" (Some 1) _ eq_refl)
    as (lap & Hlap & _ & _ & Hbrake).
  injection Hlap as <-.
  destruct (Hbrake _ eq_refl) as [Hvals Hpct].
  split; [exact Hvals|]. split; [|reflexivity].
  apply Hpct. repeat constructor; unfold Qle; simpl; lia.
Defined.

(** ** Fastest laps *)

Lemma laps_in_order_pick_driver (ls : list Lap) (d : string) :
  laps_in_order ls = true -> StronglySorted lap_number_le (pick_driver ls d).
Proof.
  induction ls as [|l rest IH]; simpl; intros H.
  - constructor.
  - apply andb_prop in H as [Hall Hrest].
    destruct (String.eqb (DriverNumber l) d) eqn:Hd; [|now apply IH].
    constructor; [now apply IH|].
    apply Forall_forall. intros l' Hl'.
    apply pick_driver_In in Hl' as [Hin Hd'].
    rewrite forallb_forall in Hall. specialize (Hall l' Hin).
    apply String.eqb_eq in Hd. rewrite Hd, Hd', String.eqb_refl in Hall.
    simpl in Hall. unfold lap_number_le. now apply Z.leb_le.
Qed.

Lemma fastest_laps_In (session : Session) (sel : list string)
  (row : FastestRow) :
  In row (fastest_laps session sel)
  <-> exists d lap,
        In d sel
        /\ pick_fastest (pick_driver (laps session) d) = Some lap
        /\ row = fastest_row d lap.
Proof.
  induction sel as [|d rest IH]; simpl.
  - split; [intros [] | intros (d & lap & [] & _)].
  - destruct (pick_fastest (pick_driver (laps session) d)) as [m|] eqn:Hp.
    + simpl. rewrite IH. split.
      * intros [<-|(d' & lap & Hd' & H1 & H2)]; eauto 6.
      * intros (d' & lap & [<-|Hd'] & H1 & H2).
        -- left. congruence.
        -- right. eauto.
    + rewrite IH. split.
      * intros (d' & lap & Hd' & H1 & H2). eauto 6.
      * intros (d' & lap & [<-|Hd'] & H1 & H2); [congruence | eauto].
Qed.

Lemma StronglySorted_weaken {A : Type} (R R' : A -> A -> Prop) (P : A -> Prop)
  (l : list A) :
  (forall a b, P a -> P b -> R a b -> R' a b) ->
  Forall P l -> StronglySorted R l -> StronglySorted R' l.
Proof.
  intros Himp HP Hs. induction Hs as [|a l Hl IH Hall].
  - constructor.
  - inversion HP as [|? ? Pa Pl]; subst. constructor; [now apply IH|].
    rewrite Forall_forall in *. intros b Hb. apply Himp; auto.
Qed.

Lemma fastest_row_timed (session : Session) (sel : list string) :
  Forall (fun row => exists t, fl_Time row = Some t) (fastest_laps session sel).
Proof.
  apply Forall_forall. intros row Hrow.
  apply fastest_laps_In in Hrow as (d & lap & _ & Hp & ->).
  apply pick_fastest_Some in Hp as (_ & t & Ht & _). now exists t.
Qed.

Lemma fastest_df_sorted (session : Session) (sel : list string) :
  StronglySorted time_le (fastest_df session sel).
Proof.
  unfold fastest_df.
  apply StronglySorted_weaken
    with (R := key_le (na_last Z.leb) fl_Time)
         (P := fun row => exists t, fl_Time row = Some t).
  - intros a b [ta Ha] [tb Hb] Hab. exists ta, tb.
    unfold key_le in Hab. rewrite Ha, Hb in Hab. simpl in Hab.
    apply Z.leb_le in Hab. auto.
  - apply Forall_forall. intros row Hrow.
    apply sort_by_In in Hrow.
    exact (proj1 (Forall_forall _ _) (fastest_row_timed session sel) row Hrow).
  - apply sort_by_StronglySorted.
    + apply na_last_total, Zleb_total.
    + apply na_last_trans, Zleb_trans.
Qed.

Lemma tab3_fastest_table (session : Session) (sel : list string)
  (s : SessionState) (t : list FastestRow) :
  In (st_dataframe (Fastest_Laps t)) (rendered (tab3 session sel s)) ->
  t = fastest_df session sel /\ fastest_laps session sel <> [].
Proof.
  unfold tab3, bind, emit, ret.
  destruct (fastest_laps session sel) as [|r rows];
    destruct (avg_times session sel) as [|a rows'];
    simpl; intros H;
    repeat (destruct H as [H|H]; try discriminate H);
    try contradiction;
    injection H as <-; (split; [reflexivity | discriminate]).
Qed.

(** C3.  Every row of the fastest-lap table belongs to a selected driver
    and reports the lap time and number of one of that driver's laps; no
    timed lap of the driver is quicker, and, the laps of a driver being
    listed by ascending lap number, no lap of the same time has a smaller
    number.  A selected driver has a row exactly when one of their laps
    has a lap time, so a driver without one contributes no row.  The table
    is in non-decreasing order of lap time, and it is the table the
    statistics tab renders. *)
Theorem fastest_lap_table_is_minimal_and_sorted :
  forall (session : Session) (selected_drivers : list string),
    let table := fastest_df session selected_drivers in
    (forall row,
        In row table ->
        In (fl_Driver row) selected_drivers
        /\ exists lap t,
             In lap (pick_driver (laps session) (fl_Driver row))
             /\ LapTime lap = Some t
             /\ fl_Time row = Some t
             /\ fl_Lap row = LapNumber lap
             /\ (forall l' t',
                   In l' (pick_driver (laps session) (fl_Driver row)) ->
                   LapTime l' = Some t' -> t <= t')
             /\ (laps_in_order (laps session) = true ->
                 forall l',
                   In l' (pick_driver (laps session) (fl_Driver row)) ->
                   LapTime l' = Some t -> fl_Lap row <= LapNumber l'))
    /\ (forall d,
          In d selected_drivers ->
          (exists lap t,
              In lap (pick_driver (laps session) d) /\ LapTime lap = Some t)
          <-> (exists row, In row table /\ fl_Driver row = d))
    /\ StronglySorted time_le table
    /\ (forall s t,
          In (st_dataframe (Fastest_Laps t))
             (rendered (tab3 session selected_drivers s)) ->
          t = table).
Proof.
  intros session sel table. subst table.
  split; [|split; [|split]].
  - intros row Hrow. unfold fastest_df in Hrow. apply sort_by_In in Hrow.
    apply fastest_laps_In in Hrow as (d & lap & Hd & Hp & ->). simpl.
    split; [exact Hd|].
    destruct (pick_fastest_Some _ _ Hp) as (Hin & t & Ht & Hmin).
    exists lap, t. repeat split; auto.
    intros Hord l' Hl' Ht'.
    apply (pick_fastest_earliest _ lap t
             (laps_in_order_pick_driver _ d Hord) Hp Ht l' Hl' Ht').
  - intros d Hd. split.
    + intros (lap & t & Hin & Ht).
      destruct (pick_fastest (pick_driver (laps session) d)) as [m|] eqn:Hp.
      * exists (fastest_row d m). split; [|reflexivity].
        unfold fastest_df. apply sort_by_In, fastest_laps_In. eauto.
      * rewrite (proj1 (pick_fastest_None _) Hp lap Hin) in Ht. discriminate.
    + intros (row & Hrow & <-). unfold fastest_df in Hrow.
      apply sort_by_In in Hrow.
      apply fastest_laps_In in Hrow as (d' & lap & _ & Hp & ->). simpl.
      apply pick_fastest_Some in Hp as (Hin & t & Ht & _). eauto.
  - apply fastest_df_sorted.
  - intros s t H. now apply tab3_fastest_table in H.
Qed.

Lemma fastest_lap_table_is_minimal_and_sorted_witness :
  laps_in_order (laps sample_session) = true
  /\ map (fun row => (fl_Driver row, fl_Time row, fl_Lap row))
         (fastest_df sample_session ["1"; "16"; "44"])
     = [("44", Some 89500000000, 3); ("1", Some 91000000000, 1)]
  /\ forall row,
       In row (fastest_df sample_session ["1"; "16"; "44"]) ->
       forall l',
         In l' (pick_driver (laps sample_session) (fl_Driver row)) ->
         LapTime l' = fl_Time row -> fl_Lap row <= LapNumber l'.
Proof.
  split; [reflexivity|]. split; [reflexivity|].
  intros row Hrow l' Hl' Ht'.
  destruct (fastest_lap_table_is_minimal_and_sorted
              sample_session ["1"; "16"; "44"]) as (Hrows & _).
  destruct (Hrows row Hrow) as (_ & lap & t & _ & _ & Ht & _ & _ & Htie).
  apply (Htie eq_refl l' Hl'). now rewrite Ht'.
Defined.

(** ** Lap-time summary *)

Lemma dropna_LapTime_column (ls : list Lap) :
  List.length (dropna (LapTime_column ls)) = List.length (filter timed ls).
Proof.
  induction ls as [|l rest IH]; simpl.
  - reflexivity.
  - unfold timed at 1. destruct (LapTime l); simpl; now rewrite ?IH.
Qed.

Lemma nanmean_present (col : list (option Q)) :
  nanmean col <> None <-> (1 <= List.length (dropna col))%nat.
Proof.
  unfold nanmean. destruct (dropna col) as [|v vs]; simpl.
  - split; [congruence | lia].
  - split; [lia | discriminate].
Qed.

Lemma nanvar_present (col : list (option Q)) :
  nanvar col <> None <-> (2 <= List.length (dropna col))%nat.
Proof.
  unfold nanvar. destruct (dropna col) as [|v [|w vs]]; simpl.
  - split; [congruence | lia].
  - split; [congruence | lia].
  - split; [lia | discriminate].
Qed.

Lemma filter_length_le {A : Type} (f : A -> bool) (l : list A) :
  (List.length (filter f l) <= List.length l)%nat.
Proof.
  induction l as [|a l IH]; simpl; [lia|]. destruct (f a); simpl; lia.
Qed.

Lemma avg_times_In (session : Session) (sel : list string) (row : AvgRow) :
  In row (avg_times session sel)
  <-> exists d,
        In d sel
        /\ pick_driver (laps session) d <> []
        /\ row = avg_row d (pick_driver (laps session) d).
Proof.
  induction sel as [|d rest IH]; simpl.
  - split; [intros [] | intros (d & [] & _)].
  - destruct (pick_driver (laps session) d) as [|l ls] eqn:Hp.
    + rewrite IH. split.
      * intros (d' & Hd' & H1 & H2). eauto.
      * intros (d' & [<-|Hd'] & H1 & H2); [congruence | eauto].
    + simpl. rewrite IH. split.
      * intros [<-|(d' & Hd' & H1 & H2)].
        -- exists d. rewrite Hp. repeat split; [now left | discriminate].
        -- eauto.
      * intros (d' & [<-|Hd'] & H1 & H2).
        -- left. rewrite Hp in H2. now symmetry.
        -- right. eauto.
Qed.

Lemma avg_df_sorted (session : Session) (sel : list string) :
  StronglySorted average_le (avg_df session sel).
Proof.
  unfold avg_df.
  apply StronglySorted_weaken
    with (R := key_le (na_last Qle_bool) Average_Time) (P := fun _ => True).
  - intros a b _ _. unfold key_le, average_le, na_last.
    destruct (Average_Time a), (Average_Time b); intros H;
      try exact I; try discriminate H.
    now apply Qle_bool_iff.
  - apply Forall_forall. auto.
  - apply sort_by_StronglySorted.
    + apply na_last_total, Qleb_total.
    + apply na_last_trans, Qleb_trans.
Qed.

(** C2, as the code has it.  A selected driver has a row in the lap-time
    summary exactly when the session holds at least one lap of theirs,
    with or without a lap time.  [Laps Completed] is the number of all
    those laps.  The mean is present exactly when one of them has a lap
    time, the standard deviation exactly when two of them have, hence only
    when the reported count is at least 2.  The table is in ascending order
    of mean lap time, rows without a mean last. *)
Theorem lap_time_summary_counts_all_laps :
  forall (session : Session) (selected_drivers : list string),
    let table := avg_df session selected_drivers in
    (forall row,
        In row table ->
        let driver_laps := pick_driver (laps session) (avg_Driver row) in
        In (avg_Driver row) selected_drivers
        /\ driver_laps <> []
        /\ Laps_Completed row = List.length driver_laps
        /\ (Average_Time row <> None
            <-> (1 <= List.length (filter timed driver_laps))%nat)
        /\ (Std_Dev row <> None
            <-> (2 <= List.length (filter timed driver_laps))%nat)
        /\ (Std_Dev row <> None -> (2 <= Laps_Completed row)%nat))
    /\ (forall d,
          In d selected_drivers ->
          pick_driver (laps session) d <> []
          <-> (exists row, In row table /\ avg_Driver row = d))
    /\ StronglySorted average_le table.
Proof.
  intros session sel table. subst table. split; [|split].
  - intros row Hrow. unfold avg_df in Hrow. apply sort_by_In in Hrow.
    apply avg_times_In in Hrow as (d & Hd & Hne & ->). simpl.
    rewrite nanmean_present, nanvar_present, dropna_LapTime_column.
    repeat split; auto; try lia.
    intros H. pose proof (filter_length_le timed (pick_driver (laps session) d)).
    lia.
  - intros d Hd. split.
    + intros Hne. exists (avg_row d (pick_driver (laps session) d)).
      split; [|reflexivity].
      unfold avg_df. apply sort_by_In, avg_times_In. eauto.
    + intros (row & Hrow & <-). unfold avg_df in Hrow.
      apply sort_by_In in Hrow.
      now apply avg_times_In in Hrow as (d' & _ & Hne & ->).
  - apply avg_df_sorted.
Qed.

Lemma lap_time_summary_counts_all_laps_witness :
  map (fun row => (avg_Driver row, Laps_Completed row,
                   notnull (Average_Time row), notnull (Std_Dev row)))
      (avg_df sample_session ["16"; "44"; "4"])
  = [("44", 3%nat, true, true); ("16", 1%nat, false, false)]
  /\ forall row,
       In row (avg_df sample_session ["16"; "44"; "4"]) ->
       Std_Dev row <> None -> (2 <= Laps_Completed row)%nat.
Proof.
  split; [reflexivity|].
  intros row Hrow.
  destruct (lap_time_summary_counts_all_laps sample_session ["16"; "44"; "4"])
    as (Hrows & _).
  now destruct (Hrows row Hrow) as (_ & _ & _ & _ & _ & H).
Defined.

(** The count the specification words: the number of the driver's laps
    that have a lap time.  Driver 44 has three laps, two of them timed,
    and is reported with three laps completed; driver 16 has no timed lap
    and still has a row. *)
Lemma completed_count_is_not_timed_lap_count :
  exists row44 row16,
    In row44 (avg_df sample_session ["16"; "44"])
    /\ In row16 (avg_df sample_session ["16"; "44"])
    /\ avg_Driver row44 = "44"
    /\ avg_Driver row16 = "16"
    /\ List.length (filter timed (pick_driver (laps sample_session) "44"))
       = 2%nat
    /\ Laps_Completed row44 = 3%nat
    /\ Laps_Completed row44
       <> List.length (filter timed (pick_driver (laps sample_session) "44"))
    /\ filter timed (pick_driver (laps sample_session) "16") = [].
Proof.
  exists (avg_row "44" (pick_driver (laps sample_session) "44")),
         (avg_row "16" (pick_driver (laps sample_session) "16")).
  split; [left; reflexivity|].
  split; [right; left; reflexivity|].
  repeat split. discriminate.
Qed.

(** ** Average sector times *)







(** * Further properties of the script *)

(** ** Runs of [main] *)













(** ** The lap table, row by row *)

Lemma driver_rows_Driver (info : DriverInfo) (ls : list Lap) :
  map Driver (driver_rows info ls)
  = repeat (Abbreviation info) (List.length (filter timed ls)).
Proof.
  induction ls as [|l rest IH]; simpl.
  - reflexivity.
  - unfold timed at 1. destruct (LapTime l); simpl; now rewrite ?IH.
Qed.

Lemma lap_times_data_app (session : Session) (a b : list string) :
  lap_times_data session (a ++ b)
  = lap_times_data session a ++ lap_times_data session b.
Proof.
  induction a as [|d rest IH]; simpl.
  - reflexivity.
  - now rewrite IH, app_assoc.
Qed.

Lemma driver_rows_In (info : DriverInfo) (ls : list Lap) (row : LapRow) :
  In row (driver_rows info ls)
  <-> exists lap t, In lap ls /\ LapTime lap = Some t /\ row = row_of info lap t.
Proof.
  induction ls as [|l rest IH]; simpl.
  - split; [intros [] | intros (lap & t & [] & _)].
  - destruct (LapTime l) as [tl|] eqn:Hl; simpl; rewrite IH; split.
    + intros [<-|(lap & t & Hin & Ht & ->)]; [exists l, tl | exists lap, t]; auto.
    + intros (lap & t & [<-|Hin] & Ht & ->).
      * left. rewrite Hl in Ht. now injection Ht as <-.
      * right. eauto.
    + intros (lap & t & Hin & Ht & ->). exists lap, t. auto.
    + intros (lap & t & [<-|Hin] & Ht & ->); [congruence | eauto].
Qed.

Lemma lap_times_data_In (session : Session) (sel : list string)
  (row : LapRow) :
  In row (lap_times_data session sel)
  <-> exists d lap t,
        In d sel /\ In lap (pick_driver (laps session) d)
        /\ LapTime lap = Some t
        /\ row = row_of (get_driver session d) lap t.
Proof.
  induction sel as [|d rest IH]; simpl.
  - split; [intros [] | intros (d & lap & t & [] & _)].
  - rewrite in_app_iff, IH, driver_rows_In. split.
    + intros [(lap & t & H1 & H2 & H3)|(d' & lap & t & H0 & H1 & H2 & H3)].
      * exists d, lap, t. auto.
      * exists d', lap, t. auto.
    + intros (d' & lap & t & [<-|H0] & H1 & H2 & H3).
      * left. eauto.
      * right. exists d', lap, t. auto.
Qed.

(** X5.  The lap table is built driver by driver in the order of the
    selection: the table of two selections put end to end is the two
    tables put end to end, and down the [Driver] column each selected
    driver's abbreviation stands once per timed lap of that driver, so a
    driver named twice in the selection is listed twice. *)
Theorem lap_table_grouped_in_selection_order :
  forall (session : Session) (a b : list string),
    lap_times_data session (a ++ b)
    = lap_times_data session a ++ lap_times_data session b
    /\ map Driver (lap_times_data session a)
       = flat_map (fun d => repeat (Abbreviation (get_driver session d))
                                   (timed_laps session d)) a
    /\ List.length (lap_times_data session a)
       = list_sum (map (timed_laps session) a).
Proof.
  intros session a b. split; [apply lap_times_data_app|].
  assert (Hcol : map Driver (lap_times_data session a)
                 = flat_map (fun d => repeat (Abbreviation (get_driver session d))
                                             (timed_laps session d)) a).
  { induction a as [|d rest IH]; simpl; [reflexivity|].
    now rewrite map_app, IH, driver_rows_Driver. }
  split; [exact Hcol|].
  rewrite <- (length_map Driver), Hcol.
  clear Hcol. induction a as [|d rest IH]; simpl; [reflexivity|].
  now rewrite length_app, repeat_length, IH.
Qed.

(** X6.  Each row of the lap table comes from a timed lap of a selected
    driver and copies it field by field: the compound is the lap's, or
    the text Unknown when the lap carries none, and each sector cell is
    missing exactly when that sector time of the lap is missing, whatever
    the other two are. *)
Theorem lap_row_copies_its_lap :
  forall (session : Session) (selected_drivers : list string)
         (table : list LapRow) (row : LapRow),
    create_lap_time_chart session selected_drivers = Some table ->
    In row table ->
    exists d lap t,
      In d selected_drivers
      /\ In lap (laps session) /\ DriverNumber lap = d
      /\ LapTime lap = Some t
      /\ Driver row = Abbreviation (get_driver session d)
      /\ Lap_Number row = LapNumber lap
      /\ Lap_Time row = Some (total_seconds t)
      /\ (forall c, Compound lap = Some c -> row_Compound row = c)
      /\ (Compound lap = None -> row_Compound row = "Unknown")
      /\ Sector_1 row = option_map total_seconds (Sector1Time lap)
      /\ Sector_2 row = option_map total_seconds (Sector2Time lap)
      /\ Sector_3 row = option_map total_seconds (Sector3Time lap).
Proof.
  intros session sel table row Htable Hrow.
  apply create_lap_time_chart_Some in Htable as [-> _].
  apply lap_times_data_In in Hrow as (d & lap & t & Hd & Hlap & Ht & ->).
  apply pick_driver_In in Hlap as [Hin Hnum].
  exists d, lap, t. simpl.
  repeat split; auto.
  - intros c Hc. now rewrite Hc.
  - intros Hc. now rewrite Hc.
Qed.

Lemma lap_row_copies_its_lap_witness :
  exists table row,
    create_lap_time_chart sample_session ["44"] = Some table
    /\ In row table
    /\ Lap_Number row = 3
    /\ row_Compound row = "Unknown"
    /\ exists lap,
         In lap (laps sample_session) /\ Lap_Number row = LapNumber lap
         /\ Sector_1 row = option_map total_seconds (Sector1Time lap).
Proof.
  eexists. eexists. split; [reflexivity|].
  split; [right; left; reflexivity|].
  split; [reflexivity|]. split; [reflexivity|].
  destruct (lap_row_copies_its_lap sample_session ["44"] _ _
              eq_refl (or_intror (or_introl eq_refl)))
    as (d & lap & t & _ & Hin & _ & _ & _ & Hn & _ & _ & _ & Hs1 & _).
  exists lap. auto.
Defined.

(** ** The year select box *)

Lemma year_range_In (current y : Z) :
  In y (year_range current) <-> 2018 < y <= current.
Proof.
  unfold year_range. rewrite in_map_iff. split.
  - intros (i & <- & Hi). apply in_seq in Hi. lia.
  - intros H. exists (Z.to_nat (current - y)). split; [lia|].
    apply in_seq. lia.
Qed.

Lemma descending_from (current : Z) (a n : nat) :
  StronglySorted Z.gt (map (fun i => current - Z.of_nat i) (seq a n)).
Proof.
  revert a. induction n as [|n IH]; intros a; simpl.
  - constructor.
  - constructor; [apply IH|].
    apply Forall_forall. intros y Hy.
    apply in_map_iff in Hy as (i & <- & Hi). apply in_seq in Hi. lia.
Qed.

(** X7.  The year select box offers exactly the years after 2018 up to
    the current one, newest first and without repetition; it is empty when
    the clock reads 2018 or earlier, and otherwise an untouched box
    returns the current year. *)
Theorem year_range_bounds :
  forall current : Z,
    (forall y, In y (year_range current) <-> 2018 < y <= current)
    /\ StronglySorted Z.gt (year_range current)
    /\ List.length (year_range current) = Z.to_nat (current - 2018)
    /\ (current <= 2018 -> year_range current = [])
    /\ (2018 < current -> picked (year_range current) 0 = Some current).
Proof.
  intros current. split; [intros y; apply year_range_In|].
  split; [apply descending_from|].
  split; [unfold year_range; now rewrite length_map, length_seq|].
  split.
  - intros H. unfold year_range.
    replace (Z.to_nat (current - 2018)) with 0%nat by lia. reflexivity.
  - intros H. unfold year_range, picked.
    destruct (Z.to_nat (current - 2018)) as [|n] eqn:Hn; [lia|].
    simpl. f_equal. lia.
Qed.

Lemma year_range_bounds_witness :
  year_range 2018 = [] /\ picked (year_range 2024) 0 = Some 2024.
Proof.
  destruct (year_range_bounds 2018) as (_ & _ & _ & Hempty & _).
  destruct (year_range_bounds 2024) as (_ & _ & _ & _ & Hfirst).
  split; [apply Hempty; lia | apply Hfirst; lia].
Defined.

(** ** The telemetry figure *)




(** ** The telemetry tab *)

Lemma picked_In {A : Type} (options : list A) (pick : nat) (x : A) :
  picked options pick = Some x -> In x options.
Proof.
  unfold picked. destruct (nth_error options pick) as [y|] eqn:Hn.
  - intros H; injection H as <-. eapply nth_error_In, Hn.
  - destruct options as [|y rest]; simpl; [discriminate|].
    intros H; injection H as <-. now left.
Qed.

Lemma picked_None {A : Type} (options : list A) (pick : nat) :
  picked options pick = None <-> options = [].
Proof.
  unfold picked. split.
  - destruct (nth_error options pick); [discriminate|].
    destruct options; [reflexivity | discriminate].
  - intros ->. now destruct pick.
Qed.

(** X9.  The lap select box only offers lap numbers of the chosen driver,
    so the lookup of the telemetry tab cannot miss: whenever the driver
    select box returns a non-empty identifier and the lap select box a
    number other than 0, the driver has a lap of that number and the tab
    renders its header, the two select boxes and the chart of that lap. *)
Theorem telemetry_tab_finds_selected_lap :
  forall (session : Session) (sel : list string) (inp : Inputs)
         (s : SessionState) (d : string) (n : Z),
    picked sel (driver_pick inp) = Some d ->
    d <> "" ->
    selected_lap_of session d inp = Some n ->
    n <> 0 ->
    exists lap,
      In lap (laps session) /\ DriverNumber lap = d /\ LapNumber lap = n
      /\ create_telemetry_plot session d (Some n) = Some (lap_figure d lap)
      /\ tab2 session sel inp s
         = Done tt s
             [st_header "Telemetry Analysis";
              st_selectbox "Select Driver" (map VStr sel);
              st_selectbox "Select Lap Number"
                (map VInt (map LapNumber (pick_driver (laps session) d)));
              st_plotly_chart (lap_figure d lap)].
Proof.
  intros session sel inp s d n Hd Hne Hlap Hn.
  assert (Hin : In n (map LapNumber (pick_driver (laps session) d)))
    by (eapply picked_In, Hlap).
  destruct (pick_lap (pick_driver (laps session) d) n) as [lap|] eqn:Hp.
  - destruct (pick_lap_Some _ _ _ Hp) as [Hl Hnum].
    apply pick_driver_In in Hl as [Hl Hdn].
    assert (Hplot : create_telemetry_plot session d (Some n)
                    = Some (lap_figure d lap)).
    { rewrite create_telemetry_plot_eq, telemetry_lap_numbered by exact Hn.
      now rewrite Hp. }
    exists lap. repeat split; auto.
    unfold tab2, selectbox, bind, emit, ret. rewrite Hd.
    unfold driver_given. apply String.eqb_neq in Hne. rewrite Hne. simpl.
    unfold selected_lap_of in Hlap. rewrite Hlap.
    unfold lap_number_given. apply Z.eqb_neq in Hn. rewrite Hn. simpl.
    now rewrite Hplot.
  - apply in_map_iff in Hin as (lap & Hnum & Hl).
    now destruct (proj1 (pick_lap_None _ n) Hp lap Hl).
Qed.

Lemma telemetry_tab_finds_selected_lap_witness :
  exists lap,
    LapNumber lap = 1
    /\ rendered (tab2 sample_session ["44"; "1"] no_press empty_state)
       = [st_header "Telemetry Analysis";
          st_selectbox "Select Driver" [VStr "44"; VStr "1"];
          st_selectbox "Select Lap Number" [VInt 1; VInt 2; VInt 3];
          st_plotly_chart (lap_figure "44" lap)].
Proof.
  destruct (telemetry_tab_finds_selected_lap
              sample_session ["44"; "1"] no_press empty_state "44" 1)
    as (lap & _ & _ & Hn & _ & Htab).
  - reflexivity.
  - discriminate.
  - reflexivity.
  - discriminate.
  - exists lap. split; [exact Hn|]. now rewrite Htab.
Defined.

(** ** The statistics tables together *)

Lemma In_length_pos {A : Type} (x : A) (l : list A) :
  In x l -> (1 <= List.length l)%nat.
Proof. destruct l; simpl; [intros [] | lia]. Qed.

Lemma pick_fastest_timed (ls : list Lap) (m : Lap) :
  pick_fastest ls = Some m -> In m (filter timed ls).
Proof.
  intros H. apply pick_fastest_Some in H as (Hin & t & Ht & _).
  apply filter_In. split; [exact Hin|]. unfold timed. now rewrite Ht.
Qed.

Lemma table_lengths (session : Session) (sel : list string) :
  (List.length (fastest_laps session sel)
   <= List.length (avg_times session sel) <= List.length sel)%nat.
Proof.
  induction sel as [|d rest IH]; simpl; [lia|].
  destruct (pick_fastest (pick_driver (laps session) d)) as [m|] eqn:Hp.
  - apply pick_fastest_Some in Hp as [Hin _].
    destruct (pick_driver (laps session) d); [destruct Hin|]. simpl. lia.
  - destruct (pick_driver (laps session) d); simpl; lia.
Qed.

(** X10.  The two statistics tables agree on who has data: every driver
    of the fastest-lap table also has a row in the lap-time summary, with
    a mean present and at least one lap counted; and neither table has
    more rows than drivers were selected, the fastest-lap table never
    more than the summary. *)
Theorem fastest_drivers_are_summarised :
  forall (session : Session) (selected_drivers : list string),
    (forall frow,
        In frow (fastest_df session selected_drivers) ->
        exists arow,
          In arow (avg_df session selected_drivers)
          /\ avg_Driver arow = fl_Driver frow
          /\ Average_Time arow <> None
          /\ (1 <= Laps_Completed arow)%nat)
    /\ (List.length (fastest_df session selected_drivers)
        <= List.length (avg_df session selected_drivers)
        <= List.length selected_drivers)%nat.
Proof.
  intros session sel. split.
  - intros frow Hrow. unfold fastest_df in Hrow. apply sort_by_In in Hrow.
    apply fastest_laps_In in Hrow as (d & lap & Hd & Hp & ->).
    pose proof (pick_fastest_timed _ _ Hp) as Ht.
    assert (Hin : In lap (pick_driver (laps session) d))
      by (now apply filter_In in Ht).
    exists (avg_row d (pick_driver (laps session) d)). simpl.
    split; [|split; [reflexivity|split]].
    + unfold avg_df. apply sort_by_In, avg_times_In. exists d.
      repeat split; [exact Hd|]. intros Hnil. now rewrite Hnil in Hin.
    + apply nanmean_present. rewrite dropna_LapTime_column.
      eapply In_length_pos, Ht.
    + eapply In_length_pos, Hin.
  - unfold fastest_df, avg_df.
    rewrite (Permutation_length (sort_by_perm _ _ (fastest_laps session sel))).
    rewrite (Permutation_length (sort_by_perm _ _ (avg_times session sel))).
    apply table_lengths.
Qed.

Lemma tab3_page (session : Session) (sel : list string) (s : SessionState) :
  rendered (tab3 session sel s)
  = [st_header "Session Statistics"; st_expander "Fastest Laps"]
    ++ match fastest_laps session sel with
       | [] => []
       | _ => [st_dataframe (Fastest_Laps (fastest_df session sel))]
       end
    ++ st_expander "Average Lap Times"
    :: match avg_times session sel with
       | [] => []
       | _ => [st_dataframe (Average_Lap_Times (avg_df session sel))]
       end.
Proof.
  unfold tab3, bind, emit, ret.
  destruct (fastest_laps session sel), (avg_times session sel); reflexivity.
Qed.

(** X11.  The statistics tab never shows an empty table: a table it
    renders is the sorted fastest-lap table or the sorted summary and has
    at least one row; the summary is rendered exactly when some selected
    driver has a lap, the fastest-lap table exactly when some selected
    driver has a timed lap. *)
Theorem statistics_tab_shows_no_empty_table :
  forall (session : Session) (selected_drivers : list string)
         (s : SessionState),
    let page := rendered (tab3 session selected_drivers s) in
    (forall data,
        In (st_dataframe data) page ->
        (1 <= table_size data)%nat
        /\ (data = Fastest_Laps (fastest_df session selected_drivers)
            \/ data = Average_Lap_Times (avg_df session selected_drivers)))
    /\ (In (st_dataframe
              (Average_Lap_Times (avg_df session selected_drivers))) page
        <-> exists d,
              In d selected_drivers /\ pick_driver (laps session) d <> [])
    /\ (In (st_dataframe (Fastest_Laps (fastest_df session selected_drivers)))
           page
        <-> exists d, In d selected_drivers /\ (1 <= timed_laps session d)%nat).
Proof.
  intros session sel s page. subst page.
  assert (Hfl : List.length (fastest_df session sel)
                = List.length (fastest_laps session sel))
    by apply Permutation_length, sort_by_perm.
  assert (Hal : List.length (avg_df session sel)
                = List.length (avg_times session sel))
    by apply Permutation_length, sort_by_perm.
  assert (Hf : fastest_laps session sel <> []
               <-> exists d, In d sel /\ (1 <= timed_laps session d)%nat).
  { split.
    - destruct (fastest_laps session sel) as [|r rows] eqn:Hrows;
        [congruence|]. intros _.
      assert (Hr : In r (fastest_laps session sel))
        by (rewrite Hrows; now left).
      apply fastest_laps_In in Hr as (d & lap & Hd & Hp & _).
      exists d. split; [exact Hd|].
      eapply In_length_pos, pick_fastest_timed, Hp.
    - intros (d & Hd & Ht) Hnil. unfold timed_laps in Ht.
      destruct (pick_fastest (pick_driver (laps session) d)) as [m|] eqn:Hp.
      + assert (Hr : In (fastest_row d m) (fastest_laps session sel))
          by (apply fastest_laps_In; eauto).
        now rewrite Hnil in Hr.
      + destruct (filter timed (pick_driver (laps session) d)) as [|l ls]
          eqn:Hfil; [simpl in Ht; lia|].
        assert (Hl : In l (filter timed (pick_driver (laps session) d)))
          by (rewrite Hfil; now left).
        apply filter_In in Hl as [Hl Htimed]. unfold timed in Htimed.
        rewrite (proj1 (pick_fastest_None _) Hp l Hl) in Htimed.
        discriminate. }
  assert (Ha : avg_times session sel <> []
               <-> exists d, In d sel /\ pick_driver (laps session) d <> []).
  { split.
    - destruct (avg_times session sel) as [|r rows] eqn:Hrows;
        [congruence|]. intros _.
      assert (Hr : In r (avg_times session sel)) by (rewrite Hrows; now left).
      apply avg_times_In in Hr as (d & Hd & Hne & _). eauto.
    - intros (d & Hd & Hne) Hnil.
      assert (Hr : In (avg_row d (pick_driver (laps session) d))
                      (avg_times session sel))
        by (apply avg_times_In; eauto).
      now rewrite Hnil in Hr. }
  rewrite <- Hf, <- Ha. clear Hf Ha.
  rewrite tab3_page.
  split; [|split].
  - intros data H. simpl in H.
    destruct H as [H|[H|H]]; try discriminate H.
    apply in_app_iff in H as [H|H].
    + destruct (fastest_laps session sel) as [|r rows]; [destruct H|].
      destruct H as [H|[]]. injection H as <-. simpl. rewrite Hfl. simpl.
      split; [lia | now left].
    + destruct H as [H|H]; [discriminate H|].
      destruct (avg_times session sel) as [|a arows]; [destruct H|].
      destruct H as [H|[]]. injection H as <-. simpl. rewrite Hal. simpl.
      split; [lia | now right].
  - split.
    + intros H Hnil. rewrite Hnil in H. simpl in H.
      destruct H as [H|[H|H]]; try discriminate H.
      apply in_app_iff in H as [H|H].
      * destruct (fastest_laps session sel); [destruct H|].
        destruct H as [H|[]]. discriminate H.
      * destruct H as [H|[]]. discriminate H.
    + intros Hne. simpl. right. right. apply in_or_app. right. right.
      destruct (avg_times session sel); [congruence | now left].
  - split.
    + intros H Hnil. rewrite Hnil in H. simpl in H.
      destruct H as [H|[H|[H|H]]]; try discriminate H.
      destruct (avg_times session sel); [destruct H|].
      destruct H as [H|[]]. discriminate H.
    + intros Hne. simpl. right. right. apply in_or_app. left.
      destruct (fastest_laps session sel); [congruence | now left].
Qed.

(** ** The fastest lap against the other views *)

Lemma total_seconds_le (t t' : Timedelta) :
  t <= t' -> (total_seconds t <= total_seconds t')%Q.
Proof.
  intros H. unfold total_seconds, Qle. simpl. lia.
Qed.

(** X12.  The lap a driver is credited with in the fastest-lap table is
    on the lap table too: the lap table of the same selection has a row
    with that driver's abbreviation, that lap number and that lap time in
    seconds, and no row the lap table builds for that driver has a
    shorter lap time. *)
Theorem fastest_lap_is_on_lap_table :
  forall (session : Session) (selected_drivers : list string)
         (frow : FastestRow),
    In frow (fastest_df session selected_drivers) ->
    exists t lrow,
      fl_Time frow = Some t
      /\ In lrow (lap_times_data session selected_drivers)
      /\ Driver lrow = Abbreviation (get_driver session (fl_Driver frow))
      /\ Lap_Number lrow = fl_Lap frow
      /\ Lap_Time lrow = Some (total_seconds t)
      /\ forall lrow',
           In lrow' (lap_times_data session [fl_Driver frow]) ->
           exists q, Lap_Time lrow' = Some q /\ (total_seconds t <= q)%Q.
Proof.
  intros session sel frow Hrow.
  unfold fastest_df in Hrow. apply sort_by_In in Hrow.
  apply fastest_laps_In in Hrow as (d & lap & Hd & Hp & ->).
  destruct (pick_fastest_Some _ _ Hp) as (Hin & t & Ht & Hmin).
  exists t, (row_of (get_driver session d) lap t).
  change (fl_Driver (fastest_row d lap)) with d.
  change (fl_Time (fastest_row d lap)) with (LapTime lap).
  change (fl_Lap (fastest_row d lap)) with (LapNumber lap).
  split; [exact Ht|]. split.
  - apply lap_times_data_In. exists d, lap, t. auto.
  - split; [reflexivity|]. split; [reflexivity|]. split; [reflexivity|].
    intros lrow' Hl'.
    apply lap_times_data_In in Hl'
      as (d' & lap' & t' & [<-|[]] & Hin' & Ht' & ->).
    exists (total_seconds t'). split; [reflexivity|].
    apply total_seconds_le. eauto.
Qed.

Lemma fastest_lap_is_on_lap_table_witness :
  exists frow t lrow,
    In frow (fastest_df sample_session ["1"; "44"])
    /\ fl_Driver frow = "44"
    /\ fl_Time frow = Some t
    /\ In lrow (lap_times_data sample_session ["1"; "44"])
    /\ Driver lrow = "HAM"
    /\ Lap_Number lrow = fl_Lap frow.
Proof.
  assert (Hin : In (fastest_row "44" (mkLap "44" 3 (Some 89500000000) None
                      (Some 29500000000) (Some 30000000000)
                      (Some 30000000000) None sample_telemetry))
                   (fastest_df sample_session ["1"; "44"]))
    by (left; reflexivity).
  destruct (fastest_lap_is_on_lap_table sample_session ["1"; "44"] _ Hin)
    as (t & lrow & Ht & Hl & Hd & Hn & _).
  eexists. exists t, lrow.
  split; [exact Hin|]. split; [reflexivity|]. auto.
Defined.

(** *** The mean against the fastest lap *)

Lemma Qlen_pos (v : Q) (vs : list Q) : (0 < Qlen (v :: vs))%Q.
Proof. unfold Qlen, Qlt. simpl. lia. Qed.

Lemma Qlen_cons (v : Q) (vs : list Q) : (Qlen (v :: vs) == 1 + Qlen vs)%Q.
Proof.
  unfold Qlen. simpl List.length. rewrite Nat2Z.inj_succ.
  unfold Z.succ. rewrite inject_Z_plus. simpl. ring.
Qed.

Lemma Qsum_lower_bound (b : Q) (vs : list Q) :
  (forall v, In v vs -> (b <= v)%Q) -> (b * Qlen vs <= Qsum vs)%Q.
Proof.
  induction vs as [|v rest IH]; intros H.
  - unfold Qlen, Qsum. simpl. rewrite Qmult_0_r. apply Qle_refl.
  - rewrite Qlen_cons. simpl Qsum.
    setoid_replace (b * (1 + Qlen rest))%Q with (b + b * Qlen rest)%Q by ring.
    apply Qplus_le_compat.
    + apply H. now left.
    + apply IH. intros w Hw. apply H. now right.
Qed.

Lemma nanmean_lower_bound (b : Q) (col : list (option Q)) (m : Q) :
  (forall v, In v (dropna col) -> (b <= v)%Q) ->
  nanmean col = Some m -> (b <= m)%Q.
Proof.
  unfold nanmean. intros Hb. destruct (dropna col) as [|v vs] eqn:Hd;
    [discriminate|].
  intros H; injection H as <-.
  apply Qle_shift_div_l; [apply Qlen_pos | now apply Qsum_lower_bound].
Qed.

Lemma dropna_LapTime_column_In (ls : list Lap) (v : Q) :
  In v (dropna (LapTime_column ls))
  -> exists l t, In l ls /\ LapTime l = Some t /\ v = inject_Z t.
Proof.
  induction ls as [|l rest IH]; simpl; [intros []|].
  destruct (LapTime l) as [t|] eqn:Ht; simpl.
  - intros [<-|H]; [exists l, t; auto|].
    destruct (IH H) as (l' & t' & Hin & Ht' & ->). exists l', t'. auto.
  - intros H. destruct (IH H) as (l' & t' & Hin & Ht' & ->).
    exists l', t'. auto.
Qed.

(** X13.  A driver's mean lap time in the summary is never below the lap
    time the fastest-lap table reports for that driver. *)
Theorem mean_is_not_below_fastest :
  forall (session : Session) (selected_drivers : list string)
         (frow : FastestRow) (arow : AvgRow),
    In frow (fastest_df session selected_drivers) ->
    In arow (avg_df session selected_drivers) ->
    avg_Driver arow = fl_Driver frow ->
    exists t m,
      fl_Time frow = Some t
      /\ Average_Time arow = Some m
      /\ (inject_Z t <= m)%Q.
Proof.
  intros session sel frow arow Hf Ha Hsame.
  unfold fastest_df in Hf. apply sort_by_In in Hf.
  apply fastest_laps_In in Hf as (d & lap & Hd & Hp & ->).
  unfold avg_df in Ha. apply sort_by_In in Ha.
  apply avg_times_In in Ha as (d' & Hd' & Hne & ->).
  simpl in Hsame. subst d'. simpl.
  destruct (pick_fastest_Some _ _ Hp) as (Hin & t & Ht & Hmin).
  destruct (nanmean (LapTime_column (pick_driver (laps session) d)))
    as [m|] eqn:Hm.
  - exists t, m. repeat split; [exact Ht|].
    apply (nanmean_lower_bound (inject_Z t)
             (LapTime_column (pick_driver (laps session) d)) m); [|exact Hm].
    intros v Hv.
    apply dropna_LapTime_column_In in Hv as (l' & t' & Hl' & Ht' & ->).
    rewrite <- Zle_Qle. eauto.
  - exfalso. revert Hm. apply nanmean_present.
    rewrite dropna_LapTime_column.
    eapply In_length_pos, pick_fastest_timed, Hp.
Qed.

Lemma mean_is_not_below_fastest_witness :
  exists frow arow t m,
    In frow (fastest_df sample_session ["16"; "44"])
    /\ In arow (avg_df sample_session ["16"; "44"])
    /\ fl_Driver frow = "44"
    /\ fl_Time frow = Some t
    /\ Average_Time arow = Some m
    /\ (inject_Z t <= m)%Q.
Proof.
  assert (Hf : In (fastest_row "44" (mkLap "44" 3 (Some 89500000000) None
                     (Some 29500000000) (Some 30000000000)
                     (Some 30000000000) None sample_telemetry))
                  (fastest_df sample_session ["16"; "44"]))
    by (left; reflexivity).
  assert (Ha : In (avg_row "44" (pick_driver (laps sample_session) "44"))
                  (avg_df sample_session ["16"; "44"]))
    by (left; reflexivity).
  destruct (mean_is_not_below_fastest sample_session ["16"; "44"] _ _
              Hf Ha eq_refl) as (t & m & Ht & Hm & Hle).
  eexists. eexists. exists t, m.
  split; [exact Hf|]. split; [exact Ha|]. split; [reflexivity|]. auto.
Defined.

Lemma fastest_drivers_are_summarised_witness :
  exists frow arow,
    In frow (fastest_df sample_session ["44"; "16"])
    /\ In arow (avg_df sample_session ["44"; "16"])
    /\ avg_Driver arow = fl_Driver frow
    /\ Average_Time arow <> None.
Proof.
  assert (Hf : In (fastest_row "44" (mkLap "44" 3 (Some 89500000000) None
                     (Some 29500000000) (Some 30000000000)
                     (Some 30000000000) None sample_telemetry))
                  (fastest_df sample_session ["44"; "16"]))
    by (left; reflexivity).
  destruct (fastest_drivers_are_summarised sample_session ["44"; "16"])
    as (Hrows & _).
  destruct (Hrows _ Hf) as (arow & Ha & Hd & Hm & _).
  eexists. exists arow. split; [exact Hf|]. auto.
Defined.

Lemma statistics_tab_shows_no_empty_table_witness :
  ~ In (st_dataframe (Fastest_Laps (fastest_df sample_session ["16"])))
       (rendered (tab3 sample_session ["16"] empty_state))
  /\ In (st_dataframe (Average_Lap_Times (avg_df sample_session ["16"])))
        (rendered (tab3 sample_session ["16"] empty_state)).
Proof.
  destruct (statistics_tab_shows_no_empty_table
              sample_session ["16"] empty_state) as (_ & Havg & Hfast).
  split.
  - intros H. apply Hfast in H as (d & [<-|[]] & Ht).
    unfold timed_laps in Ht. simpl in Ht. lia.
  - apply Havg. exists "16". split; [now left | discriminate].
Defined.

(** ** The dashboard around the tabs *)






(** ** The sector chart *)



(** ** The telemetry tab without a lap *)

(** X16.  For a driver without any lap the lap select box has nothing to
    offer and returns nothing, and the telemetry tab then renders its
    header and the two select boxes but neither calls for a figure nor
    renders one; when the driver select box returns the empty identifier
    or nothing, the lap select box is not rendered either. *)
Theorem telemetry_tab_without_lap :
  forall (session : Session) (sel : list string) (inp : Inputs)
         (s : SessionState),
    (forall d,
        picked sel (driver_pick inp) = Some d ->
        d <> "" ->
        pick_driver (laps session) d = [] ->
        tab2 session sel inp s
        = Done tt s
            [st_header "Telemetry Analysis";
             st_selectbox "Select Driver" (map VStr sel);
             st_selectbox "Select Lap Number" []])
    /\ (picked sel (driver_pick inp) = None
        \/ picked sel (driver_pick inp) = Some "" ->
        tab2 session sel inp s
        = Done tt s
            [st_header "Telemetry Analysis";
             st_selectbox "Select Driver" (map VStr sel)])
    /\ (sel = [] <-> picked sel (driver_pick inp) = None).
Proof.
  intros session sel inp s. split; [|split].
  - intros d Hd Hne Hnil.
    unfold tab2, selectbox, bind, emit, ret. rewrite Hd.
    unfold driver_given. apply String.eqb_neq in Hne. rewrite Hne. simpl.
    rewrite Hnil. simpl. now destruct (lap_pick inp).
  - intros [H|H]; unfold tab2, selectbox, bind, emit, ret; now rewrite H.
  - symmetry. apply picked_None.
Qed.

Lemma telemetry_tab_without_lap_witness :
  tab2 sample_session ["4"; "44"] no_press empty_state
  = Done tt empty_state
      [st_header "Telemetry Analysis";
       st_selectbox "Select Driver" [VStr "4"; VStr "44"];
       st_selectbox "Select Lap Number" []].
Proof.
  destruct (telemetry_tab_without_lap sample_session ["4"; "44"] no_press
              empty_state) as (H & _ & _).
  apply (H "4"); [reflexivity | discriminate | reflexivity].
Defined.
